(** * cli-translator: a shallow embedding of [translator.py]

    The module is a skeleton: twenty-eight functions whose body is the
    single statement [pass], four exception classes, and the
    [if __name__ == '__main__'] block, the only place with control flow.
    Python values, the exception class hierarchy, the outside world the
    program could touch and a small state-and-exception monad are
    modelled first; the functions and the entry block are then written
    in that monad the way the source writes them. *)

From Stdlib Require Import ZArith List String Ascii Bool Lia QArith.
Import ListNotations.
Close Scope Q_scope.
Open Scope string_scope.

(* ================================================================== *)
(** ** Python values *)

Unset Elimination Schemes.
Inductive PyVal : Type :=
| PyNone
| PyBool (b : bool)
| PyInt (z : Z)
| PyFloat (q : Q)
| PyStr (s : string)
| PyList (items : list PyVal)
| PyTuple (items : list PyVal)
| PyDict (entries : list (string * PyVal)).
Set Elimination Schemes.

(** [d[key]] on a dict with string keys, [None] when the key is absent. *)
Fixpoint dict_get (entries : list (string * PyVal)) (key : string) : option PyVal :=
  match entries with
  | [] => None
  | (k, v) :: rest => if String.eqb k key then Some v else dict_get rest key
  end.

(* ================================================================== *)
(** ** Exception classes

    The built-in classes the module names (in its handlers and in the
    [Raises] sections of its docstrings) and the four classes it
    declares, lines 803-820. *)

Inductive PyClass : Type :=
| BaseException
| SystemExit
| KeyboardInterrupt
| GeneratorExit
| Exception
| ValueError
| LookupError
| KeyError
| OSError
| ConnectionError
| FileNotFoundError
| PermissionError
| EOFError
| TranslationError
| APIError
| RateLimitError
| AuthenticationError.

Scheme Equality for PyClass.

(** [c.__bases__], restricted to exception classes ([object] is left out). *)
Definition bases (c : PyClass) : list PyClass :=
  match c with
  | BaseException => []
  | SystemExit => [BaseException]
  | KeyboardInterrupt => [BaseException]
  | GeneratorExit => [BaseException]
  | Exception => [BaseException]
  | ValueError => [Exception]
  | LookupError => [Exception]
  | KeyError => [LookupError]
  | OSError => [Exception]
  | ConnectionError => [OSError]
  | FileNotFoundError => [OSError]
  | PermissionError => [OSError]
  | EOFError => [Exception]
  | TranslationError => [Exception]     (* class TranslationError(Exception) *)
  | APIError => [TranslationError]      (* class APIError(TranslationError) *)
  | RateLimitError => [TranslationError]       (* class RateLimitError(TranslationError) *)
  | AuthenticationError => [TranslationError]  (* class AuthenticationError(TranslationError) *)
  end.

(** [issubclass(c, d)]: [c] is [d] or one of its bases is a subclass of
    [d]; the search follows [bases] for at most [fuel] levels. *)
Fixpoint issubclass_upto (fuel : nat) (c d : PyClass) : bool :=
  PyClass_beq c d ||
  match fuel with
  | O => false
  | S n => existsb (fun b => issubclass_upto n b d) (bases c)
  end.

(** Seventeen classes, so no chain of bases is longer than that. *)
Definition issubclass (c d : PyClass) : bool := issubclass_upto 17 c d.

(** The same relation, as the reflexive and transitive closure of
    [bases]. *)
Inductive Subclass : PyClass -> PyClass -> Prop :=
| Subclass_refl : forall c, Subclass c c
| Subclass_base : forall c b d, In b (bases c) -> Subclass b d -> Subclass c d.

(** An exception object: its class and the arguments it was built with. *)
Record PyExc : Type := mkExc { exc_class : PyClass; exc_args : list PyVal }.

(* ================================================================== *)
(** ** The world outside the interpreter *)

(** The fields the docstring of [load_config] lists. *)
Record Config : Type := mkConfig {
  api_key : option string;
  default_source : string;
  default_target : string;
  api_provider : string;
  history_enabled : bool;
  max_history : Z
}.

(** What the environment would answer if it were asked: whether language
    detection is available, whether the history file can be written and
    whether the [k]-th translation request to the provider fails. *)
Record Environment : Type := mkEnv {
  detection_fails : bool;
  history_write_fails : bool;
  provider_fails : nat -> bool
}.

(** A call to [handle_error] made by the entry block. *)
Inductive Call : Type :=
| CallHandleError (error : PyExc) (context : string).

Record World : Type := mkWorld {
  config : Config;                   (* ~/.cli-translator/config.json *)
  history_store : list PyVal;        (* the history file, oldest record first *)
  files : list (string * string);    (* the other files: path and content *)
  stdout : string;                   (* what has been printed *)
  requests : list string;            (* network requests sent so far *)
  calls : list Call;                 (* calls of handle_error so far *)
  env : Environment
}.

Definition write_stdout (s : string) (w : World) : World :=
  mkWorld (config w) (history_store w) (files w) (stdout w ++ s)
          (requests w) (calls w) (env w).

Definition record_call (c : Call) (w : World) : World :=
  mkWorld (config w) (history_store w) (files w) (stdout w)
          (requests w) (calls w ++ [c]) (env w).

(* ================================================================== *)
(** ** Computations: state passing with exceptions *)

Inductive Outcome (A : Type) : Type :=
| Returned (a : A)
| Raised (e : PyExc).

Arguments Returned {A} a.
Arguments Raised {A} e.

Definition Py (A : Type) : Type := World -> Outcome A * World.

Definition ret {A : Type} (a : A) : Py A := fun w => (Returned a, w).

Definition raise {A : Type} (e : PyExc) : Py A := fun w => (Raised e, w).

Definition bind {A B : Type} (m : Py A) (k : A -> Py B) : Py B :=
  fun w =>
    match m w with
    | (Returned a, w') => k a w'
    | (Raised e, w') => (Raised e, w')
    end.

Notation "x <- m ;; k" := (bind m (fun x => k))
  (at level 61, m at next level, right associativity).
Notation "m ;; k" := (bind m (fun _ => k))
  (at level 61, right associativity).

(** The statement [pass]. *)
Definition pass : Py unit := ret tt.

(** [def f(...): body]: a call runs the body, and a body that reaches its
    end without a [return] statement makes the call return [None]. *)
Definition def_ (body : Py unit) : Py PyVal := body ;; ret PyNone.

(** [try: body  except C1: h1  except C2 as e: h2 ...]: the first clause
    whose class the raised exception is an instance of handles it; an
    exception raised by the handler leaves the statement. *)
Definition try_except {A : Type} (body : Py A)
    (handlers : list (PyClass * (PyExc -> Py A))) : Py A :=
  fun w =>
    match body w with
    | (Returned a, w') => (Returned a, w')
    | (Raised e, w') =>
        match find (fun h => issubclass (exc_class e) (fst h)) handlers with
        | Some h => snd h e w'
        | None => (Raised e, w')
        end
    end.

Definition newline : string := String (ascii_of_nat 10) EmptyString.

(** [print(s)] writes [s] and a newline to standard output. *)
Definition print (s : string) : Py unit :=
  fun w => (Returned tt, write_stdout (s ++ newline) w).

(** [sys.exit(code)] raises [SystemExit(code)]. *)
Definition sys_exit {A : Type} (code : Z) : Py A :=
  raise (mkExc SystemExit [PyInt code]).

(** The exit status of the process when [SystemExit] carries the int
    [n]: the interpreter converts [n] to a C [long] (64 bits; a value
    that does not fit becomes -1) and the operating system keeps the low
    eight bits of what is passed to [exit]. *)
Definition exit_status (n : Z) : Z :=
  if ((-9223372036854775808 <=? n) && (n <=? 9223372036854775807))%Z
  then (n mod 256)%Z
  else 255%Z.

(** How the interpreter ends when the module's code ends with [o]: a
    normal end is status 0, [SystemExit] gives the status it carries
    ([None] or nothing is 0, an int [n] is [exit_status n], a bool is
    the int it is, anything else is printed and gives 1), and any other
    exception ends in a traceback. *)
Inductive ProcessEnd : Type :=
| ExitCode (status : Z)
| Traceback (e : PyExc).

Definition interpreter_exit {A : Type} (o : Outcome A) : ProcessEnd :=
  match o with
  | Returned _ => ExitCode 0
  | Raised e =>
      if issubclass (exc_class e) SystemExit then
        match exc_args e with
        | [] => ExitCode 0
        | [PyNone] => ExitCode 0
        | [PyInt n] => ExitCode (exit_status n)
        | [PyBool b] => ExitCode (if b then 1 else 0)
        | _ => ExitCode 1
        end
      else Traceback e
  end.

(* ================================================================== *)
(** ** The functions of [translator.py]

    Each is [def name(parameters): pass] after its docstring.  A
    parameter annotated [str] is a [string], [int] a [Z], [bool] a
    [bool], [Optional[str]] an [option string], [Dict] and [List[Dict]]
    Python values; default values are written out at the call. *)

(** *** Configuration management *)

Definition load_config : Py PyVal := def_ pass.

Definition save_config (config : PyVal) : Py PyVal := def_ pass.

Definition get_api_key (api_provider : string) : Py PyVal := def_ pass.

Definition setup_first_run : Py PyVal := def_ pass.

(** *** Translation core *)

Definition translate_text (text source_lang target_lang api_provider : string)
  : Py PyVal := def_ pass.

Definition call_translation_api
    (text source_lang target_lang api_provider api_key : string)
  : Py PyVal := def_ pass.

Definition parse_api_response (response : PyVal) (api_provider : string)
  : Py PyVal := def_ pass.

(** *** Language detection and validation *)

Definition detect_language (text api_provider : string) : Py PyVal := def_ pass.

Definition validate_language_code (lang_code : string) : Py PyVal := def_ pass.

Definition get_supported_languages (api_provider : string) : Py PyVal := def_ pass.

(** *** File operations *)

Definition translate_file
    (input_file output_file source_lang target_lang api_provider : string)
  : Py PyVal := def_ pass.

Definition read_file_content (file_path encoding : string) : Py PyVal := def_ pass.

Definition write_file_content (file_path content encoding : string)
  : Py PyVal := def_ pass.

(** *** History management *)

Definition save_to_history (translation_record : PyVal) : Py PyVal := def_ pass.

Definition get_history (limit : Z) (filter_lang : option string)
  : Py PyVal := def_ pass.

Definition clear_history : Py PyVal := def_ pass.

(** *** Display and formatting *)

Definition display_translation (translation : PyVal) (show_details : bool)
  : Py PyVal := def_ pass.

Definition display_languages (languages : list PyVal) : Py PyVal := def_ pass.

Definition display_history (history : list PyVal) : Py PyVal := def_ pass.

(** *** Interactive mode *)

Definition interactive_mode (config : PyVal) : Py PyVal := def_ pass.

Definition prompt_for_input (prompt_message : string) : Py PyVal := def_ pass.

(** *** Command-line interface *)

Definition parse_arguments : Py PyVal := def_ pass.

Definition main : Py PyVal := def_ pass.

(** *** Utility functions *)

Definition validate_text_length (text : string) (max_length : Z)
  : Py PyVal := def_ pass.

Definition chunk_text (text : string) (chunk_size : Z) : Py PyVal := def_ pass.

Definition format_timestamp (timestamp : string) : Py PyVal := def_ pass.

Definition get_language_name (lang_code : string) : Py PyVal := def_ pass.

(** *** Error handling *)

Definition handle_error (error : PyExc) (context : string) : Py PyVal := def_ pass.

(* ================================================================== *)
(** ** The entry block, lines 851-867

<<
    try:
        main()
    except KeyboardInterrupt:
        print("\n\nTranslation cancelled by user.")
        sys.exit(0)
    except Exception as e:
        handle_error(e, "main")
        sys.exit(1)
>>
    The call [main()] is an argument: the block's two handlers matter
    only when that call raises, which the interpreter can make happen at
    any call (Ctrl-C is delivered as [KeyboardInterrupt]) and which any
    body put in place of the stub can do.  [run_module] is the block
    with the module's own [main]. *)

Definition cancelled_message : string :=
  newline ++ newline ++ "Translation cancelled by user.".

(** The call [handle_error(e, "main")], noted in [calls]. *)
Definition call_handle_error (e : PyExc) (context : string) : Py PyVal :=
  fun w => handle_error e context (record_call (CallHandleError e context) w).

Definition script_entry (main_call : Py PyVal) : Py unit :=
  try_except (main_call ;; ret tt)
    [ (KeyboardInterrupt,
       fun _ => print cancelled_message ;; sys_exit 0);
      (Exception,
       fun e => call_handle_error e "main" ;; sys_exit 1) ].

Definition run_module : Py unit := script_entry main.

(** A sequence of calls [save_to_history(r)], one per record, in order. *)
Fixpoint save_all (records : list PyVal) : Py PyVal :=
  match records with
  | [] => ret PyNone
  | r :: rest => save_to_history r ;; save_all rest
  end.

(** The value a call returned, [None] in the model when it raised. *)
Definition returned_value (r : Outcome PyVal * World) : option PyVal :=
  match fst r with
  | Returned v => Some v
  | Raised _ => None
  end.

(* ================================================================== *)
(** ** What the specification says, in its own words

    The definitions of this part follow the specification, not the
    source; each is compared with the source's functions further down. *)

(** Testable properties, chunking: [chunk(text, C)] produces chunks
    [c1..ck] with [concat(c1..ck) == text] and [len(ci) <= C]. *)
Definition is_chunking (text : string) (C : Z) (v : PyVal) : Prop :=
  exists chunks : list string,
    v = PyList (map PyStr chunks) /\
    String.concat "" chunks = text /\
    Forall (fun c => (Z.of_nat (String.length c) <= C)%Z) chunks.

(** History Store, [append(record)]: bounded-size append; on exceeding
    [max_history], evict oldest record(s) until size fits.  The store is
    kept oldest first, so eviction drops from the front. *)
Definition evict_oldest (limit : Z) (records : list PyVal) : list PyVal :=
  skipn (List.length records - Z.to_nat limit) records.

Definition append_bounded (limit : Z) (records : list PyVal) (record : PyVal)
  : list PyVal :=
  evict_oldest limit (records ++ [record])%list.

(** The history claim at one call: afterwards the store holds at most
    [max_history] records, and it is the bounded append of the record. *)
Definition history_append_spec (record : PyVal) (w : World) : Prop :=
  let w' := snd (save_to_history record w) in
  (Z.of_nat (List.length (history_store w')) <= max_history (config w'))%Z /\
  history_store w' =
    append_bounded (max_history (config w)) (history_store w) record.

(** File Translator: on a failure at chunk [i] the result reports
    [success = false] and the count [i - 1] of chunks completed, and no
    output file exists. *)
Definition reports_failed_file (completed : Z) (v : PyVal) : Prop :=
  exists entries : list (string * PyVal),
    v = PyDict entries /\
    dict_get entries "success" = Some (PyBool false) /\
    exists key : string, dict_get entries key = Some (PyInt completed).

Definition file_failure_spec (output_file : string) (completed : Z)
    (before : World) (r : Outcome PyVal * World) : Prop :=
  (exists v, returned_value r = Some v /\ reports_failed_file completed v) /\
  files (snd r) = files before /\
  (forall content, ~ In (output_file, content) (files (snd r))).

(** Data model, TranslationResult: a dict that carries at least the
    translated text. *)
Definition is_translation_result (v : PyVal) : Prop :=
  exists (entries : list (string * PyVal)) (translated : string),
    v = PyDict entries /\
    dict_get entries "translated_text" = Some (PyStr translated).

(** Translation Pipeline, step 3: detection failed, so the result has
    resolved source [en] and confidence [0.0]. *)
Definition fell_back_to_en (v : PyVal) : Prop :=
  exists entries : list (string * PyVal),
    v = PyDict entries /\
    dict_get entries "source_language" = Some (PyStr "en") /\
    dict_get entries "confidence" = Some (PyFloat 0%Q).

Definition detection_fallback_spec (r : Outcome PyVal * World) : Prop :=
  exists v, returned_value r = Some v /\
            is_translation_result v /\ fell_back_to_en v.

(** Translation Pipeline, step 6: the translation result is returned,
    whatever happened to the history write. *)
Definition returns_translation_result (r : Outcome PyVal * World) : Prop :=
  exists v, returned_value r = Some v /\ is_translation_result v.

(** Error handling, ValidationError: the call is rejected with a
    validation error ([ValueError] in the docstring of [translate_text])
    and no request has been sent. *)
Definition rejected_before_network (before : World)
    (r : Outcome PyVal * World) : Prop :=
  (exists e, fst r = Raised e /\ issubclass (exc_class e) ValueError = true) /\
  requests (snd r) = requests before.


(** A routine that is a stub: every call returns [None] and leaves the
    world as it found it. *)
Definition is_stub (call : Py PyVal) : Prop :=
  forall w : World, call w = (Returned PyNone, w).

(* ================================================================== *)
(** ** Concrete worlds and inputs *)

Definition default_config : Config :=
  mkConfig None "auto" "en" "google" true 5.

Definition quiet_env : Environment := mkEnv false false (fun _ => false).

Definition empty_world : World :=
  mkWorld default_config [] [] "" [] [] quiet_env.

(** A history record with the keys [save_to_history] documents. *)
Definition history_record (source_text translated_text : string) : PyVal :=
  PyDict [ ("source_text", PyStr source_text);
           ("translated_text", PyStr translated_text);
           ("source_lang", PyStr "en");
           ("target_lang", PyStr "es");
           ("timestamp", PyStr "2024-01-01T00:00:00") ].

Definition five_records : list PyVal :=
  [ history_record "one" "uno"; history_record "two" "dos";
    history_record "three" "tres"; history_record "four" "cuatro";
    history_record "five" "cinco" ].

Definition sixth_record : PyVal := history_record "six" "seis".

(** [max_history] is 5 and the store already holds five records. *)
Definition full_history_world : World :=
  mkWorld default_config five_records [] "" [] [] quiet_env.

(** The history file holds six records while [max_history] is 5. *)
Definition overfull_history_world : World :=
  mkWorld default_config (five_records ++ [sixth_record])%list [] "" [] []
          quiet_env.

Fixpoint repeat_string (s : string) (n : nat) : string :=
  match n with
  | O => ""
  | S k => s ++ repeat_string s k
  end.

(** A 12000-character input file, and a provider that fails on the
    second request (request 1, counting from 0). *)
Definition failing_provider_world : World :=
  mkWorld default_config [] [("input.txt", repeat_string "a" (Z.to_nat 12000))] "" [] []
          (mkEnv false false (fun k => Nat.eqb k 1)).

(** Language detection fails. *)
Definition no_detection_world : World :=
  mkWorld default_config [] [] "" [] [] (mkEnv true false (fun _ => false)).

(** History logging is enabled and the history file cannot be written. *)
Definition broken_history_world : World :=
  mkWorld default_config [] [] "" [] [] (mkEnv false true (fun _ => false)).

(** The world [w] with the history file made writable or not. *)
Definition with_history_write_fails (fails : bool) (w : World) : World :=
  mkWorld (config w) (history_store w) (files w) (stdout w) (requests w)
          (calls w)
          (mkEnv (detection_fails (env w)) fails (provider_fails (env w))).




(** [main()] raises the module's [RateLimitError]. *)
Definition main_rate_limited : Py PyVal :=
  raise (mkExc RateLimitError [PyStr "too many requests"]).

(** [main()] raises [GeneratorExit], an exception outside [Exception]. *)
Definition main_generator_exit : Py PyVal := raise (mkExc GeneratorExit []).

(* ================================================================== *)
(** ** Conditions on a returned value *)

(** [bool(v)], the truth value the statement [if v:] tests. *)
Definition truthy (v : PyVal) : bool :=
  match v with
  | PyNone => false
  | PyBool b => b
  | PyInt z => negb (Z.eqb z 0)
  | PyFloat q => negb (Qeq_bool q 0%Q)
  | PyStr s => negb (String.eqb s "")
  | PyList items => negb (Nat.eqb (List.length items) 0)
  | PyTuple items => negb (Nat.eqb (List.length items) 0)
  | PyDict entries => negb (Nat.eqb (List.length entries) 0)
  end.

(** [if cond: then_  else: else_], with [cond] a call. *)
Definition if_ {A : Type} (cond : Py PyVal) (then_ else_ : Py A) : Py A :=
  v <- cond ;; if truthy v then then_ else else_.

(** The classes the module declares, lines 803-820. *)
Definition module_errors : list PyClass :=
  [TranslationError; APIError; RateLimitError; AuthenticationError].

(* ================================================================== *)
(** ** The monad and the class hierarchy *)

Lemma bind_ret_l {A B : Type} (a : A) (k : A -> Py B) (w : World) :
  bind (ret a) k w = k a w.
Proof. reflexivity. Qed.

Lemma bind_raise_l {A B : Type} (e : PyExc) (k : A -> Py B) (w : World) :
  bind (raise e) k w = (Raised e, w).
Proof. reflexivity. Qed.

Lemma bind_assoc {A B C : Type} (m : Py A) (k : A -> Py B) (h : B -> Py C)
    (w : World) :
  bind (bind m k) h w = bind m (fun a => bind (k a) h) w.
Proof.
  unfold bind. destruct (m w) as [[a | e] w']; reflexivity.
Qed.

(** A function whose body is [pass] returns [None] and changes nothing. *)
Lemma def_pass_run (w : World) : def_ pass w = (Returned PyNone, w).
Proof. reflexivity. Qed.

Lemma try_except_returned {A : Type} (body : Py A)
    (handlers : list (PyClass * (PyExc -> Py A))) (w w' : World) (a : A) :
  body w = (Returned a, w') ->
  try_except body handlers w = (Returned a, w').
Proof. intros H. unfold try_except. rewrite H. reflexivity. Qed.

Lemma try_except_unhandled {A : Type} (body : Py A)
    (handlers : list (PyClass * (PyExc -> Py A))) (w w' : World) (e : PyExc) :
  body w = (Raised e, w') ->
  forallb (fun h => negb (issubclass (exc_class e) (fst h))) handlers = true ->
  try_except body handlers w = (Raised e, w').
Proof.
  intros Hbody Hnone. unfold try_except. rewrite Hbody.
  induction handlers as [| h rest IH]; simpl in *.
  - reflexivity.
  - apply andb_true_iff in Hnone. destruct Hnone as [Hh Hrest].
    apply negb_true_iff in Hh. rewrite Hh. apply IH. exact Hrest.
Qed.

Lemma issubclass_refl (c : PyClass) : issubclass c c = true.
Proof. destruct c; reflexivity. Qed.

Lemma issubclass_Subclass (c d : PyClass) :
  issubclass c d = true -> Subclass c d.
Proof.
  destruct c, d; vm_compute; intros H; try discriminate H;
    repeat first
      [ apply Subclass_refl
      | eapply Subclass_base; [ simpl; left; reflexivity | ] ].
Qed.

Lemma Subclass_issubclass (c d : PyClass) :
  Subclass c d -> issubclass c d = true.
Proof.
  induction 1 as [c | c b d Hin _ IH].
  - apply issubclass_refl.
  - destruct c; simpl in Hin; try contradiction;
      destruct Hin as [<- | []];
      destruct d; vm_compute in IH |- *; congruence.
Qed.

Lemma issubclass_trans (a b c : PyClass) :
  issubclass a b = true -> issubclass b c = true -> issubclass a c = true.
Proof.
  intros Hab Hbc. apply Subclass_issubclass.
  apply issubclass_Subclass in Hab. apply issubclass_Subclass in Hbc.
  induction Hab as [| x y z Hin _ IH].
  - exact Hbc.
  - eapply Subclass_base; [ exact Hin | apply IH; exact Hbc ].
Qed.

(** Every class of the model is an exception class. *)
Lemma issubclass_BaseException (c : PyClass) :
  issubclass c BaseException = true.
Proof. destruct c; reflexivity. Qed.

(** Only [KeyboardInterrupt] itself is caught by [except KeyboardInterrupt]. *)
Lemma issubclass_KeyboardInterrupt (c : PyClass) :
  issubclass c KeyboardInterrupt = true <-> c = KeyboardInterrupt.
Proof.
  split.
  - destruct c; vm_compute; intros H; try discriminate H; reflexivity.
  - intros ->. reflexivity.
Qed.



(** The low eight bits: 256 is status 0 and -1 is status 255; an int
    outside the range of a C [long] gives 255. *)
Lemma exit_status_wraps :
  exit_status 256 = 0%Z /\ exit_status (-1) = 255%Z /\
  exit_status (2 ^ 64) = 255%Z /\
  (forall n, 0 <= exit_status n <= 255)%Z.
Proof.
  repeat split; try reflexivity; unfold exit_status;
    destruct ((-9223372036854775808 <=? n) && (n <=? 9223372036854775807))%Z;
    try lia; pose proof (Z.mod_pos_bound n 256); lia.
Qed.

(** The module's own [main] returns, so the block ends normally: exit
    status 0, nothing printed, [handle_error] not called. *)
Lemma run_module_ends_normally (w : World) :
  run_module w = (Returned tt, w) /\
  interpreter_exit (fst (run_module w)) = ExitCode 0.
Proof. split; reflexivity. Qed.

(* ================================================================== *)
(** ** The routines are stubs *)

(** C1. Every routine of the module is an unimplemented stub: for every
    input and in every world, each of the twenty-eight functions
    ([translate_text], [chunk_text], [save_to_history], [translate_file]
    and the rest) returns [None] and leaves the world (configuration,
    history, files, standard output, network) exactly as it was. *)
Theorem all_routines_are_stubs :
  is_stub load_config /\
  (forall c, is_stub (save_config c)) /\
  (forall p, is_stub (get_api_key p)) /\
  is_stub setup_first_run /\
  (forall text src tgt p, is_stub (translate_text text src tgt p)) /\
  (forall text src tgt p k, is_stub (call_translation_api text src tgt p k)) /\
  (forall resp p, is_stub (parse_api_response resp p)) /\
  (forall text p, is_stub (detect_language text p)) /\
  (forall code, is_stub (validate_language_code code)) /\
  (forall p, is_stub (get_supported_languages p)) /\
  (forall i o src tgt p, is_stub (translate_file i o src tgt p)) /\
  (forall path enc, is_stub (read_file_content path enc)) /\
  (forall path content enc, is_stub (write_file_content path content enc)) /\
  (forall rec, is_stub (save_to_history rec)) /\
  (forall limit lang, is_stub (get_history limit lang)) /\
  is_stub clear_history /\
  (forall t d, is_stub (display_translation t d)) /\
  (forall ls, is_stub (display_languages ls)) /\
  (forall h, is_stub (display_history h)) /\
  (forall c, is_stub (interactive_mode c)) /\
  (forall m, is_stub (prompt_for_input m)) /\
  is_stub parse_arguments /\
  is_stub main /\
  (forall text n, is_stub (validate_text_length text n)) /\
  (forall text n, is_stub (chunk_text text n)) /\
  (forall ts, is_stub (format_timestamp ts)) /\
  (forall code, is_stub (get_language_name code)) /\
  (forall e ctx, is_stub (handle_error e ctx)).
Proof.
  repeat split; intros; apply def_pass_run.
Qed.

(* ================================================================== *)
(** ** Chunking *)

(** [None] is not a list of chunks of any text. *)
Lemma None_is_no_chunking (text : string) (C : Z) : ~ is_chunking text C PyNone.
Proof. intros [chunks [Hlist _]]. discriminate Hlist. Qed.

(** C2, as stated, fails: [chunk_text("Hello", 5000)] does not return a
    list of chunks that concatenate to ["Hello"]. *)
Lemma chunk_text_Hello_is_not_chunked :
  ~ (exists v : PyVal,
       returned_value (chunk_text "Hello" 5000 empty_world) = Some v /\
       is_chunking "Hello" 5000 v).
Proof.
  intros [v [Hret Hchunks]].
  unfold chunk_text in Hret. rewrite def_pass_run in Hret.
  injection Hret as <-.
  exact (@None_is_no_chunking _ _ Hchunks).
Qed.

(** C2, amended. For every text and every chunk size [C],
    [chunk_text(text, C)] returns [None] and changes nothing: it produces
    no list of chunks, so neither a reassembly nor a chunk length
    exists. *)
Theorem chunk_text_returns_None :
  forall (text : string) (C : Z) (w : World),
    chunk_text text C w = (Returned PyNone, w) /\
    (forall v, returned_value (chunk_text text C w) = Some v ->
               ~ is_chunking text C v).
Proof.
  intros text C w. split.
  - apply def_pass_run.
  - intros v Hret. unfold chunk_text in Hret. rewrite def_pass_run in Hret.
    injection Hret as <-. apply None_is_no_chunking.
Qed.

(* ================================================================== *)
(** ** Language validation *)

(** C8. For every language code, two calls of [validate_language_code]
    with the same code return the same result, and neither call changes
    the world. *)
Theorem validate_language_code_idempotent :
  forall (code : string) (w : World),
    let first := validate_language_code code w in
    let second := validate_language_code code (snd first) in
    fst second = fst first /\ snd first = w /\ snd second = w.
Proof.
  intros code w. unfold validate_language_code.
  cbv zeta. repeat (rewrite def_pass_run; cbn [fst snd]).
  repeat split.
Qed.

(* ================================================================== *)
(** ** The error classes *)

(** C10. [RateLimitError] and [AuthenticationError] are direct
    subclasses of [TranslationError] and are not subclasses of
    [APIError]; a [try] statement whose only handler is
    [except APIError] does not catch an exception of either class, which
    leaves the statement unhandled. *)
Theorem rate_limit_and_authentication_are_not_APIError :
  bases RateLimitError = [TranslationError] /\
  bases AuthenticationError = [TranslationError] /\
  issubclass RateLimitError APIError = false /\
  issubclass AuthenticationError APIError = false /\
  ~ Subclass RateLimitError APIError /\
  ~ Subclass AuthenticationError APIError /\
  (forall (args : list PyVal) (handler : PyExc -> Py PyVal) (w : World),
     try_except (raise (mkExc RateLimitError args)) [(APIError, handler)] w
       = (Raised (mkExc RateLimitError args), w) /\
     try_except (raise (mkExc AuthenticationError args)) [(APIError, handler)] w
       = (Raised (mkExc AuthenticationError args), w)).
Proof.
  repeat split; try reflexivity.
  - intros H. apply Subclass_issubclass in H. discriminate H.
  - intros H. apply Subclass_issubclass in H. discriminate H.
Qed.

(* ================================================================== *)
(** ** The history store *)

(** What the specification's bounded append does on a full store: the
    oldest record goes and the new one is last. *)
Lemma append_bounded_on_full_store :
  append_bounded 5 five_records sixth_record =
    (tl five_records ++ [sixth_record])%list.
Proof. reflexivity. Qed.

Lemma save_to_history_run (record : PyVal) (w : World) :
  save_to_history record w = (Returned PyNone, w).
Proof. apply def_pass_run. Qed.

Lemma save_all_run (records : list PyVal) (w : World) :
  save_all records w = (Returned PyNone, w).
Proof.
  induction records as [| r rest IH]; simpl.
  - reflexivity.
  - unfold bind. rewrite save_to_history_run. exact IH.
Qed.

(** The store is left as it was even when it already holds more records
    than [max_history]. *)
Lemma save_to_history_keeps_overfull_store :
  let w' := snd (save_to_history sixth_record overfull_history_world) in
  List.length (history_store w') = 6%nat /\ max_history (config w') = 5%Z.
Proof. split; reflexivity. Qed.

(** C3, as stated, fails: with [max_history = 5] and five records
    stored, [save_to_history] of a sixth record does not leave the
    bounded append of that record (the newest five); the store is
    unchanged, the oldest record still in it and the new one absent. *)
Lemma save_to_history_does_not_append_or_evict :
  ~ history_append_spec sixth_record full_history_world.
Proof.
  unfold history_append_spec. rewrite save_to_history_run. cbn [snd].
  intros [_ Hstore]. discriminate Hstore.
Qed.

(** C3, amended. [save_to_history] never changes the history store: it
    appends nothing and evicts nothing, whatever the store holds, an
    overfull store included.  So after any sequence of calls the store
    and [max_history] are the ones before them, and when the number of
    stored records did not exceed [max_history] before, it does not
    after. *)
Theorem save_all_preserves_history_bound :
  forall (records : list PyVal) (w : World),
    let w' := snd (save_all records w) in
    (forall record : PyVal,
       history_store (snd (save_to_history record w)) = history_store w) /\
    history_store w' = history_store w /\
    max_history (config w') = max_history (config w) /\
    ((Z.of_nat (List.length (history_store w)) <= max_history (config w))%Z ->
     (Z.of_nat (List.length (history_store w')) <= max_history (config w'))%Z).
Proof.
  intros records w. cbv zeta. rewrite save_all_run. cbn [snd].
  split; [ | split; [ | split ] ].
  - intros record. rewrite save_to_history_run. reflexivity.
  - reflexivity.
  - reflexivity.
  - intros Hbound. exact Hbound.
Qed.

Lemma save_all_preserves_history_bound_witness :
  (Z.of_nat (List.length (history_store full_history_world))
   <= max_history (config full_history_world))%Z /\
  (let w' := snd (save_all [sixth_record; sixth_record] full_history_world) in
   history_store w' = five_records /\
   (Z.of_nat (List.length (history_store w')) <= 5)%Z) /\
  history_store
    (snd (save_all [sixth_record; sixth_record] overfull_history_world))
  = (five_records ++ [sixth_record])%list.
Proof.
  split; [ | split ].
  - simpl. lia.
  - destruct (save_all_preserves_history_bound
                [sixth_record; sixth_record] full_history_world)
      as [_ [Hstore [_ Hbound]]].
    split.
    + exact Hstore.
    + apply Hbound. simpl. lia.
  - destruct (save_all_preserves_history_bound
                [sixth_record; sixth_record] overfull_history_world)
      as [_ [Hstore _]].
    exact Hstore.
Defined.

(* ================================================================== *)
(** ** File translation *)

Lemma None_reports_no_failure (completed : Z) :
  ~ reports_failed_file completed PyNone.
Proof. intros [entries [Hdict _]]. discriminate Hdict. Qed.

(** C4, as stated, fails: with a 12000-character input and a provider
    that fails on the second request, [translate_file] does not return a
    result that reports [success = false] with one chunk completed. *)
Lemma translate_file_reports_no_failure :
  ~ file_failure_spec "output.txt" 1 failing_provider_world
      (translate_file "input.txt" "output.txt" "auto" "en" "google"
                      failing_provider_world).
Proof.
  unfold translate_file. rewrite def_pass_run.
  intros [[v [Hret Hrep]] _].
  cbv [returned_value fst] in Hret. injection Hret as <-.
  exact (@None_reports_no_failure 1 Hrep).
Qed.

(** C4, amended. For every input and whatever the provider does,
    [translate_file] writes no output file (the files are the ones
    before the call), sends no request and returns [None]: it reports
    neither [success = false] nor a count of completed chunks. *)
Theorem translate_file_writes_nothing :
  forall (input_file output_file src tgt provider : string) (w : World),
    let r := translate_file input_file output_file src tgt provider w in
    fst r = Returned PyNone /\
    files (snd r) = files w /\
    requests (snd r) = requests w /\
    (forall completed v, returned_value r = Some v ->
                         ~ reports_failed_file completed v).
Proof.
  intros input_file output_file src tgt provider w. cbv zeta.
  unfold translate_file. rewrite def_pass_run. cbn [fst snd].
  repeat split.
  intros completed v Hret. cbv [returned_value fst] in Hret.
  injection Hret as <-. apply None_reports_no_failure.
Qed.

(* ================================================================== *)
(** ** The translation pipeline *)

Lemma translate_text_run (text src tgt provider : string) (w : World) :
  translate_text text src tgt provider w = (Returned PyNone, w).
Proof. apply def_pass_run. Qed.

Lemma None_is_no_translation_result : ~ is_translation_result PyNone.
Proof. intros [entries [translated [Hdict _]]]. discriminate Hdict. Qed.

(** C5, as stated, fails: with source ['auto'] and a failing language
    detection, [translate_text("Hello", 'auto', 'es', 'google')] does
    not produce a translation result with source [en] and confidence
    [0.0]. *)
Lemma translate_text_auto_gives_no_fallback_result :
  ~ detection_fallback_spec
      (translate_text "Hello" "auto" "es" "google" no_detection_world).
Proof.
  rewrite translate_text_run.
  intros [v [Hret [Hres _]]].
  cbv [returned_value fst] in Hret. injection Hret as <-.
  exact (None_is_no_translation_result Hres).
Qed.

(** C5, amended. When [translate_text] is called with source ['auto']
    and language detection fails, the call does not abort: it raises
    nothing and returns [None], with the world unchanged.  No detection
    is attempted and no translation result is produced;
    [detect_language] itself returns [None]. *)
Theorem translate_text_auto_does_not_abort :
  forall (text tgt provider : string) (w : World),
    detection_fails (env w) = true ->
    let r := translate_text text "auto" tgt provider w in
    (forall e, fst r <> Raised e) /\
    r = (Returned PyNone, w) /\
    detect_language text provider w = (Returned PyNone, w).
Proof.
  intros text tgt provider w _. cbv zeta. rewrite translate_text_run.
  repeat split.
  intros e He. discriminate He.
Qed.

Lemma translate_text_auto_does_not_abort_witness :
  detection_fails (env no_detection_world) = true /\
  translate_text "Hello" "auto" "es" "google" no_detection_world
    = (Returned PyNone, no_detection_world).
Proof.
  split.
  - reflexivity.
  - apply (translate_text_auto_does_not_abort
             "Hello" "es" "google" no_detection_world).
    reflexivity.
Defined.

(** C6, as stated, fails: with history logging enabled and a history
    file that cannot be written, [translate_text("Hello", 'en', 'es',
    'google')] does not return a translation result. *)
Lemma translate_text_returns_no_translation_result :
  history_enabled (config broken_history_world) = true /\
  history_write_fails (env broken_history_world) = true /\
  ~ returns_translation_result
      (translate_text "Hello" "en" "es" "google" broken_history_world).
Proof.
  split; [ reflexivity | split; [ reflexivity | ] ].
  rewrite translate_text_run.
  intros [v [Hret Hres]].
  cbv [returned_value fst] in Hret. injection Hret as <-.
  exact (None_is_no_translation_result Hres).
Qed.

(** C6, amended. For every translation call where history logging is
    enabled, whether the history write would fail or succeed makes no
    difference to the call: [translate_text] raises nothing and returns
    the same value, [None], in both cases.  It produces no translation
    result and logs nothing: the history store, the requests sent and
    the rest of the world are as before the call.  [save_to_history]
    itself returns [None] without raising and without changing
    anything. *)
Theorem translate_text_ignores_history_failure :
  forall (text src tgt provider : string) (w : World) (fails : bool),
    history_enabled (config w) = true ->
    let w0 := with_history_write_fails fails w in
    let r := translate_text text src tgt provider w0 in
    (forall e, fst r <> Raised e) /\
    fst r = fst (translate_text text src tgt provider w) /\
    fst r = Returned PyNone /\
    ~ returns_translation_result r /\
    snd r = w0 /\
    history_store (snd r) = history_store w /\
    requests (snd r) = requests w /\
    (forall record, save_to_history record w0 = (Returned PyNone, w0)).
Proof.
  intros text src tgt provider w fails _. cbv zeta.
  rewrite !translate_text_run. cbn [fst snd].
  split; [ | split; [ | split; [ | split; [ | split; [ | split; [ | split ]]]]]].
  - intros e He. discriminate He.
  - reflexivity.
  - reflexivity.
  - intros [v [Hret Hres]].
    cbv [returned_value fst] in Hret. injection Hret as <-.
    exact (None_is_no_translation_result Hres).
  - reflexivity.
  - reflexivity.
  - reflexivity.
  - intros record. apply save_to_history_run.
Qed.

Lemma translate_text_ignores_history_failure_witness :
  history_enabled (config empty_world) = true /\
  fst (translate_text "Hello" "en" "es" "google"
         (with_history_write_fails true empty_world))
  = fst (translate_text "Hello" "en" "es" "google" empty_world) /\
  snd (translate_text "Hello" "en" "es" "google"
         (with_history_write_fails true empty_world))
  = with_history_write_fails true empty_world.
Proof.
  split.
  - reflexivity.
  - destruct (translate_text_ignores_history_failure
                "Hello" "en" "es" "google" empty_world true eq_refl)
      as [_ [Hsame [_ [_ [Hworld _]]]]].
    split; [ exact Hsame | exact Hworld ].
Defined.

(** C7, as stated, fails: [translate_text] with an empty text is not
    rejected with a validation error. *)
Lemma translate_text_accepts_empty_text :
  ~ rejected_before_network empty_world
      (translate_text "" "en" "es" "google" empty_world).
Proof.
  rewrite translate_text_run.
  intros [[e [Hraised _]] _]. discriminate Hraised.
Qed.

(** C7, amended. For every input, and so for every input with an empty
    text, an oversized text or an invalid language code, [translate_text]
    attempts no network call; it does not reject the input either: it
    raises no validation error and returns [None]. *)
Theorem translate_text_sends_no_request :
  forall (text src tgt provider : string) (w : World),
    let r := translate_text text src tgt provider w in
    requests (snd r) = requests w /\
    fst r = Returned PyNone /\
    ~ rejected_before_network w r.
Proof.
  intros text src tgt provider w. cbv zeta. rewrite translate_text_run.
  repeat split.
  intros [[e [Hraised _]] _]. discriminate Hraised.
Qed.

(* ================================================================== *)
(** ** The entry block *)

Lemma call_handle_error_run (e : PyExc) (context : string) (w : World) :
  call_handle_error e context w
  = (Returned PyNone, record_call (CallHandleError e context) w).
Proof. unfold call_handle_error, handle_error. apply def_pass_run. Qed.

(** What the block does once [main()] has raised [e]. *)
Lemma script_entry_raised (main_call : Py PyVal) (w w' : World) (e : PyExc) :
  main_call w = (Raised e, w') ->
  script_entry main_call w =
    if issubclass (exc_class e) KeyboardInterrupt then
      (Raised (mkExc SystemExit [PyInt 0]),
       write_stdout (cancelled_message ++ newline) w')
    else if issubclass (exc_class e) Exception then
      (Raised (mkExc SystemExit [PyInt 1]),
       record_call (CallHandleError e "main") w')
    else (Raised e, w').
Proof.
  intros Hmain. unfold script_entry, try_except, bind at 1.
  rewrite Hmain. cbn [find fst snd].
  destruct (issubclass (exc_class e) KeyboardInterrupt).
  - reflexivity.
  - destruct (issubclass (exc_class e) Exception).
    + cbn [snd]. unfold bind. rewrite call_handle_error_run. reflexivity.
    + reflexivity.
Qed.

(** When [main()] returns, so does the block, and nothing is added. *)
Lemma script_entry_returned (main_call : Py PyVal) (w w' : World) (v : PyVal) :
  main_call w = (Returned v, w') ->
  script_entry main_call w = (Returned tt, w').
Proof.
  intros Hmain. unfold script_entry. apply try_except_returned.
  unfold bind. rewrite Hmain. reflexivity.
Qed.




(* ================================================================== *)
(** ** More on the entry block and the error classes *)

(** The three shapes the block's result can take, by what [main()] did. *)
Lemma script_entry_cases (main_call : Py PyVal) (w : World) :
  (exists v w', main_call w = (Returned v, w') /\
                script_entry main_call w = (Returned tt, w')) \/
  (exists e w', main_call w = (Raised e, w') /\
                exc_class e = KeyboardInterrupt /\
                script_entry main_call w =
                  (Raised (mkExc SystemExit [PyInt 0]),
                   write_stdout (cancelled_message ++ newline) w')) \/
  (exists e w', main_call w = (Raised e, w') /\
                issubclass (exc_class e) Exception = true /\
                script_entry main_call w =
                  (Raised (mkExc SystemExit [PyInt 1]),
                   record_call (CallHandleError e "main") w')) \/
  (exists e w', main_call w = (Raised e, w') /\
                exc_class e <> KeyboardInterrupt /\
                issubclass (exc_class e) Exception = false /\
                script_entry main_call w = (Raised e, w')).
Proof.
  destruct (main_call w) as [[v | e] w'] eqn:Hmain.
  - left. exists v, w'. split; [ reflexivity | ].
    apply (@script_entry_returned main_call w w' v Hmain).
  - right. rewrite (@script_entry_raised main_call w w' e Hmain).
    destruct (issubclass (exc_class e) KeyboardInterrupt) eqn:Hki.
    + left. exists e, w'. apply issubclass_KeyboardInterrupt in Hki.
      repeat split; assumption.
    + right.
      destruct (issubclass (exc_class e) Exception) eqn:Hexc.
      * left. exists e, w'. repeat split; assumption.
      * right. exists e, w'. repeat split; try assumption.
        intros Heq. apply issubclass_KeyboardInterrupt in Heq.
        rewrite Heq in Hki. discriminate Hki.
Qed.

(** X1. When [main()] returns, whatever it returns, the entry block
    returns too: the process exits with status 0, and the block has
    printed nothing and has not called [handle_error] (the world is the
    one [main()] left). *)
Theorem script_entry_main_returns :
  forall (main_call : Py PyVal) (w w' : World) (v : PyVal),
    main_call w = (Returned v, w') ->
    script_entry main_call w = (Returned tt, w') /\
    interpreter_exit (fst (script_entry main_call w)) = ExitCode 0.
Proof.
  intros main_call w w' v Hmain.
  rewrite (@script_entry_returned main_call w w' v Hmain).
  split; reflexivity.
Qed.

Lemma script_entry_main_returns_witness :
  script_entry (ret (PyInt 7)) full_history_world
    = (Returned tt, full_history_world) /\
  interpreter_exit (fst (script_entry (ret (PyInt 7)) full_history_world))
    = ExitCode 0.
Proof.
  apply (script_entry_main_returns (ret (PyInt 7)) full_history_world
           full_history_world (PyInt 7)).
  reflexivity.
Defined.

(** X2. No instance of [Exception] and no [KeyboardInterrupt] escapes
    the entry block: when the process ends in a traceback, the exception
    shown is the one [main()] raised and it is neither a
    [KeyboardInterrupt] nor an instance of [Exception]. *)
Theorem script_entry_traceback_only_outside_Exception :
  forall (main_call : Py PyVal) (w : World) (e : PyExc),
    interpreter_exit (fst (script_entry main_call w)) = Traceback e ->
    (exists w', main_call w = (Raised e, w')) /\
    issubclass (exc_class e) Exception = false /\
    exc_class e <> KeyboardInterrupt.
Proof.
  intros main_call w e Hend.
  destruct (script_entry_cases main_call w)
    as [ (v & w' & _ & Hr) | [ (e' & w' & _ & _ & Hr)
       | [ (e' & w' & _ & _ & Hr) | (e' & w' & Hmain & Hki & Hexc & Hr) ] ] ];
    rewrite Hr in Hend; cbn [fst interpreter_exit] in Hend;
    try discriminate Hend.
  destruct (issubclass (exc_class e') SystemExit).
  - destruct (exc_args e') as [| [] [|]]; discriminate Hend.
  - injection Hend as <-. split; [ exists w'; exact Hmain | split; assumption ].
Qed.

Lemma script_entry_traceback_only_outside_Exception_witness :
  interpreter_exit (fst (script_entry main_generator_exit empty_world))
    = Traceback (mkExc GeneratorExit []) /\
  issubclass GeneratorExit Exception = false.
Proof.
  split.
  - reflexivity.
  - apply (script_entry_traceback_only_outside_Exception
             main_generator_exit empty_world (mkExc GeneratorExit [])).
    reflexivity.
Defined.



(** X4. An exception of any of the module's own classes
    ([TranslationError], [APIError], [RateLimitError],
    [AuthenticationError]) that leaves [main()] is caught by the block's
    [except Exception] clause: [handle_error(e, "main")] is called once
    and the process exits with status 1. *)
Theorem script_entry_handles_module_errors :
  forall (main_call : Py PyVal) (w w' : World) (e : PyExc),
    main_call w = (Raised e, w') ->
    issubclass (exc_class e) TranslationError = true ->
    let r := script_entry main_call w in
    interpreter_exit (fst r) = ExitCode 1 /\
    calls (snd r) = (calls w' ++ [CallHandleError e "main"])%list /\
    stdout (snd r) = stdout w'.
Proof.
  intros main_call w w' e Hmain Hte. cbv zeta.
  rewrite (@script_entry_raised main_call w w' e Hmain).
  assert (Hexc : issubclass (exc_class e) Exception = true).
  { apply (issubclass_trans _ TranslationError); [ exact Hte | reflexivity ]. }
  assert (Hki : issubclass (exc_class e) KeyboardInterrupt = false).
  { destruct (issubclass (exc_class e) KeyboardInterrupt) eqn:H; [ | reflexivity ].
    apply issubclass_KeyboardInterrupt in H. rewrite H in Hte.
    discriminate Hte. }
  rewrite Hki, Hexc. repeat split.
Qed.

Lemma script_entry_handles_module_errors_witness :
  issubclass RateLimitError TranslationError = true /\
  let r := script_entry main_rate_limited empty_world in
  interpreter_exit (fst r) = ExitCode 1 /\
  calls (snd r) =
    [CallHandleError (mkExc RateLimitError [PyStr "too many requests"]) "main"] /\
  stdout (snd r) = "".
Proof.
  split.
  - reflexivity.
  - apply (script_entry_handles_module_errors main_rate_limited empty_world
             empty_world (mkExc RateLimitError [PyStr "too many requests"])
             eq_refl).
    reflexivity.
Defined.

(** X5. A handler [except TranslationError] catches exactly the four
    classes the module declares: an exception is an instance of
    [TranslationError] if and only if its class is [TranslationError],
    [APIError], [RateLimitError] or [AuthenticationError], and for those
    the handler runs, on the world the raising code left. *)
Theorem except_TranslationError_catches_module_errors :
  (forall c : PyClass,
     issubclass c TranslationError = true <-> In c module_errors) /\
  (forall (e : PyExc) (handler : PyExc -> Py PyVal) (w : World),
     In (exc_class e) module_errors ->
     try_except (raise e) [(TranslationError, handler)] w = handler e w).
Proof.
  assert (Hiff : forall c : PyClass,
             issubclass c TranslationError = true <-> In c module_errors).
  { intros c. split.
    - destruct c; vm_compute; intros H; try discriminate H; tauto.
    - unfold module_errors. simpl.
      intros [<- | [<- | [<- | [<- | []]]]]; reflexivity. }
  split; [ exact Hiff | ].
  intros e handler w Hin. apply Hiff in Hin.
  unfold try_except, raise. cbn [find fst snd]. rewrite Hin. reflexivity.
Qed.

Lemma except_TranslationError_catches_module_errors_witness :
  In AuthenticationError module_errors /\
  try_except (raise (mkExc AuthenticationError []))
             [(TranslationError, fun e => ret (PyStr "caught"))] empty_world
    = (Returned (PyStr "caught"), empty_world).
Proof.
  split.
  - simpl. tauto.
  - apply (proj2 except_TranslationError_catches_module_errors
             (mkExc AuthenticationError []) (fun e => ret (PyStr "caught"))
             empty_world).
    simpl. tauto.
Defined.

(** X6. The module's errors are caught by no handler but their own,
    [except TranslationError], [except Exception] and
    [except BaseException]: a class of the module is a subclass of no
    other class, so handlers for [ValueError], [ConnectionError] or
    [OSError] and handlers for a sibling class let it through. *)
Theorem module_errors_superclasses :
  forall c d : PyClass,
    In c module_errors ->
    issubclass c d = true ->
    d = c \/ d = TranslationError \/ d = Exception \/ d = BaseException.
Proof.
  intros c d Hin. unfold module_errors in Hin. simpl in Hin.
  destruct Hin as [<- | [<- | [<- | [<- | []]]]];
    destruct d; vm_compute; intros H; try discriminate H; tauto.
Qed.

Lemma module_errors_superclasses_witness :
  TranslationError = APIError \/ TranslationError = TranslationError \/
  TranslationError = Exception \/ TranslationError = BaseException.
Proof.
  apply (module_errors_superclasses APIError TranslationError).
  - simpl. tauto.
  - reflexivity.
Defined.

(** X7. The entry block touches nothing but standard output and the
    record of [handle_error] calls: configuration, history store, files,
    network requests and environment after the block are the ones
    [main()] left, whether [main()] returned or raised. *)
Theorem script_entry_frame :
  forall (main_call : Py PyVal) (w : World),
    let after_main := snd (main_call w) in
    let after_block := snd (script_entry main_call w) in
    config after_block = config after_main /\
    history_store after_block = history_store after_main /\
    files after_block = files after_main /\
    requests after_block = requests after_main /\
    env after_block = env after_main.
Proof.
  intros main_call w. cbv zeta.
  destruct (script_entry_cases main_call w)
    as [ (v & w' & Hmain & Hr) | [ (e' & w' & Hmain & _ & Hr)
       | [ (e' & w' & Hmain & _ & Hr) | (e' & w' & Hmain & _ & _ & Hr) ] ] ];
    rewrite Hr, Hmain; repeat split.
Qed.

(** X8. Running the module as a script with its own [main] does nothing:
    in every world the process ends with exit status 0, nothing is
    printed, [handle_error] is not called and the world is unchanged. *)
Theorem run_module_exits_0_without_effect :
  forall w : World,
    interpreter_exit (fst (run_module w)) = ExitCode 0 /\
    snd (run_module w) = w /\
    stdout (snd (run_module w)) = stdout w /\
    calls (snd (run_module w)) = calls w.
Proof.
  intros w. unfold run_module.
  rewrite (@script_entry_returned main w w PyNone (def_pass_run w)).
  repeat split.
Qed.

(** X9. The functions whose docstring promises a [bool] return a value
    that is false as a condition: a caller that branches on the result
    takes the [else] branch for every language code, every text, every
    configuration, every file and every history record. *)
Theorem bool_functions_are_falsy :
  forall (A : Type) (then_ else_ : Py A) (w : World),
    (forall code, if_ (validate_language_code code) then_ else_ w = else_ w) /\
    (forall text n, if_ (validate_text_length text n) then_ else_ w = else_ w) /\
    (forall c, if_ (save_config c) then_ else_ w = else_ w) /\
    (forall path content enc,
       if_ (write_file_content path content enc) then_ else_ w = else_ w) /\
    (forall record, if_ (save_to_history record) then_ else_ w = else_ w) /\
    if_ clear_history then_ else_ w = else_ w.
Proof.
  intros A then_ else_ w.
  repeat split; intros; unfold if_, bind;
    match goal with
    | |- context [ ?f w ] =>
        change (f w) with (def_ pass w)
    end; rewrite def_pass_run; reflexivity.
Qed.
